(** * tasks.py: the [newday] scaffolding task

    The repository holds one invoke task,

      def newday(c, day):
          day = int(day)
          c.run(f"mkdir -p puzzles/{day:d}/")
          if not os.path.exists(f"src/puzzles/day{day:d}.rs"):
              c.run(f"cp templates/dayn.rs src/puzzles/day{day:d}.rs")

    The embedding follows it line by line: the Python builtins it calls
    ([int], the [d] format), the file tree it acts on, the two coreutils
    commands it runs through the shell ([mkdir -p], [cp]), invoke's
    [Context.run] and finally the task itself, in a state-and-exception
    monad over the file tree.

    Scope of the embedding: [day] is a [str] of ASCII characters or an
    [int]; paths are relative to the working directory, without [.] and
    [..]; the tree has regular files and directories, no symbolic links
    and no permissions, so a command fails only where a file of the wrong
    kind, or nothing, is found. *)

From Stdlib Require Import ZArith Ascii String List.
From stdpp Require Import base option list strings pretty gmap.

Local Open Scope Z_scope.
Local Open Scope string_scope.
Local Open Scope list_scope.

(** ** Python builtins *)

Module Py.

(** The argument of a task as the caller hands it over: invoke's command
    line passes a [str]; a Python caller may pass an [int]. *)
Inductive value :=
| Str (s : string)
| Int (z : Z).

(** [Py_ISSPACE]: the six ASCII blanks that [int] skips around a literal. *)
Definition isspace (a : ascii) : bool := Ascii.is_space a.

Fixpoint lstrip (s : string) : string :=
  match s with
  | String a s' => if isspace a then lstrip s' else s
  | EmptyString => EmptyString
  end.

Definition rstrip (s : string) : string := String.rev (lstrip (String.rev s)).

Definition strip (s : string) : string := rstrip (lstrip s).

Definition digit (a : ascii) : option Z :=
  Z.of_nat <$> Ascii.is_nat a.

(** The digit loop of [PyLong_FromString] in base 10. [prev] tells whether
    the character just read was a digit: an underscore is accepted only
    between two digits, and the literal ends on a digit. *)
Fixpoint digits (acc : Z) (prev : bool) (s : string) : option Z :=
  match s with
  | EmptyString => if prev then Some acc else None
  | String a s' =>
      match digit a with
      | Some v => digits (10 * acc + v) true s'
      | None =>
          if Ascii.eqb a "_" && prev then digits acc false s' else None
      end
  end.

(** [int(s)] for a [str] of ASCII characters: blanks stripped at both
    ends, an optional sign, then the digits. [None] is [ValueError]. *)
Definition int_of_str (s : string) : option Z :=
  match strip s with
  | String "+" r => digits 0 false r
  | String "-" r => Z.opp <$> digits 0 false r
  | r => digits 0 false r
  end.

Definition int (v : value) : option Z :=
  match v with
  | Str s => int_of_str s
  | Int z => Some z
  end.

(** [format(z, "d")]: decimal digits, a minus sign for negative numbers. *)
Definition format_d (z : Z) : string := pretty z.

End Py.

(** ** The file tree and the two commands the task runs *)

Module Fs.

(** What a path names: a regular file with its bytes, or a directory.
    The tree is the finite map from the paths that exist, each a list of
    components below the working directory, to what they name. *)
Inductive node :=
| File (data : string)
| Dir.

(** Fields of [s] between occurrences of [sep], empty ones included. *)
Fixpoint split (sep : ascii) (s : string) : list string :=
  match s with
  | EmptyString => [EmptyString]
  | String a s' =>
      if Ascii.eqb a sep then EmptyString :: split sep s'
      else match split sep s' with
           | w :: ws => String a w :: ws
           | [] => [String a EmptyString]
           end
  end.

Definition nonempty (s : string) : bool :=
  match s with EmptyString => false | _ => true end.

(** Components of a relative path name: repeated and trailing slashes
    do not count, so [puzzles/5/] and [puzzles/5] name the same path. *)
Definition components (name : string) : list string :=
  List.filter nonempty (split "/" name).

(** [stat]: the working directory itself always is a directory. *)
Definition stat (t : gmap (list string) node) (p : list string) : option node :=
  match p with
  | [] => Some Dir
  | _ => t !! p
  end.

Definition parent (p : list string) : list string := removelast p.

(** A tree is well formed when everything that exists lies in a
    directory. *)
Definition well_formed (t : gmap (list string) node) : bool :=
  forallb (λ e, match stat t (parent e.1) with Some Dir => true | _ => false end)
          (map_to_list t).

(** [mkdir -p]: walk down the components below [pre]; a directory on
    the way is entered, a missing one is made, a regular file in the way
    is an error (exit status 1). *)
Fixpoint mkdir_p_at (pre rest : list string) (t : gmap (list string) node)
  : Z * gmap (list string) node :=
  match rest with
  | [] => (0, t)
  | c :: rest' =>
      let p := pre ++ [c] in
      match t !! p with
      | Some Dir => mkdir_p_at p rest' t
      | Some (File _) => (1, t)
      | None => mkdir_p_at p rest' (<[p := Dir]> t)
      end
  end.

Definition mkdir_p (p : list string) (t : gmap (list string) node)
  : Z * gmap (list string) node :=
  mkdir_p_at [] p t.

(** [cp SRC DST] without options: SRC must be a regular file; when DST
    is a directory the copy goes inside it under SRC's last component;
    the target must lie in a directory, must not be a directory and must
    not be SRC itself; a regular file at the target is overwritten. *)
Definition cp (src dst : list string) (t : gmap (list string) node)
  : Z * gmap (list string) node :=
  match stat t src with
  | Some (File data) =>
      let target :=
        match stat t dst with
        | Some Dir => dst ++ option_list (last src)
        | _ => dst
        end in
      if decide (target = src) then (1, t)
      else match stat t target, stat t (parent target) with
           | Some Dir, _ => (1, t)
           | _, Some Dir => (0, <[target := File data]> t)
           | _, _ => (1, t)
           end
  | _ => (1, t)
  end.

End Fs.

(** ** The shell behind [Context.run] *)

Module Shell.

(** Word splitting of a command line on blanks. *)
Definition words (cmd : string) : list string :=
  List.filter Fs.nonempty (Fs.split " " cmd).

Definition is_option (w : string) : bool :=
  match w with
  | String "-" _ => true
  | _ => false
  end.

(** The commands the task issues: [mkdir -p NAME] and [cp SRC DST] with
    plain operands. Anything else is outside the embedding and exits
    with status 127. *)
Definition exec (cmd : string) (t : gmap (list string) Fs.node)
  : Z * gmap (list string) Fs.node :=
  match words cmd with
  | [prog; a; b] =>
      if decide (prog = "mkdir" ∧ a = "-p") then
        if is_option b then (127, t) else Fs.mkdir_p (Fs.components b) t
      else if decide (prog = "cp") then
        if is_option a || is_option b then (127, t)
        else Fs.cp (Fs.components a) (Fs.components b) t
      else (127, t)
  | _ => (127, t)
  end.

End Shell.

(** ** invoke's [Context] and the task monad *)

Module Invoke.

(** The exceptions that reach the caller of a task: Python's
    [ValueError] with the rejected literal, and invoke's
    [UnexpectedExit] with the command and its exit status. *)
Inductive exn :=
| ValueError (literal : string)
| UnexpectedExit (cmd : string) (code : Z).

(** The world a task runs in: the file tree, and the commands handed to
    [Context.run] so far, oldest first, each with its exit status. *)
Record world := World {
  files : gmap (list string) Fs.node;
  ran : list (string * Z)
}.

Definition task (A : Type) : Type := world → (exn + A) * world.

#[global] Instance task_ret : MRet task := λ A a w, (inr a, w).

#[global] Instance task_bind : MBind task := λ A B f m w,
  match m w with
  | (inl e, w') => (inl e, w')
  | (inr a, w') => f a w'
  end.

Definition raise {A} (e : exn) : task A := λ w, (inl e, w).

(** [int(day)] inside a task: a bad literal raises [ValueError]. *)
Definition int (v : Py.value) : task Z :=
  match Py.int v with
  | Some z => mret z
  | None => raise (ValueError match v with Py.Str s => s | Py.Int _ => "" end)
  end.

(** [os.path.exists(name)] *)
Definition os_path_exists (name : string) : task bool := λ w,
  (inr (bool_decide (is_Some (Fs.stat (files w) (Fs.components name)))), w).

(** [c.run(cmd)]: run the command through the shell, keep whatever it
    did to the file tree, raise [UnexpectedExit] unless it exits with 0. *)
Definition run (cmd : string) : task unit := λ w,
  let '(code, t) := Shell.exec cmd (files w) in
  let w' := World t (ran w ++ [(cmd, code)]) in
  if decide (code = 0) then (inr (), w') else (inl (UnexpectedExit cmd code), w').

End Invoke.

(** ** tasks.py *)

Module Tasks.
Import Invoke.

Definition newday (day : Py.value) : task unit :=
  day ← int day;
  run ("mkdir -p puzzles/" +:+ Py.format_d day +:+ "/");;
  present ← os_path_exists ("src/puzzles/day" +:+ Py.format_d day +:+ ".rs");
  if negb present
  then run ("cp templates/dayn.rs src/puzzles/day" +:+ Py.format_d day +:+ ".rs")
  else mret ().

End Tasks.

(** ** Names used by the statements *)

(** The paths and command lines of one day, as the f-strings of [newday]
    build them, and the characters that decide how they are split. *)
Module Layout.

Definition dir_name (d : Z) : string := "puzzles/" +:+ Py.format_d d +:+ "/".
Definition file_name (d : Z) : string :=
  "src/puzzles/day" +:+ Py.format_d d +:+ ".rs".
Definition mkdir_cmd (d : Z) : string := "mkdir -p " +:+ dir_name d.
Definition cp_cmd (d : Z) : string := "cp templates/dayn.rs " +:+ file_name d.

Definition puzzles : list string := ["puzzles"].
Definition puzzle_dir (d : Z) : list string := ["puzzles"; Py.format_d d].
Definition src_puzzles : list string := ["src"; "puzzles"].
Definition source_file (d : Z) : list string :=
  ["src"; "puzzles"; "day" +:+ Py.format_d d +:+ ".rs"].
Definition template : list string := ["templates"; "dayn.rs"].


(** Does character [c] occur in [s]? *)
Fixpoint occurs (c : ascii) (s : string) : bool :=
  match s with
  | EmptyString => false
  | String a s' => Ascii.eqb a c || occurs c s'
  end.

(** The directories [mkdir -p] visits below [pre], outermost first. *)
Fixpoint chain (pre rest : list string) : list (list string) :=
  match rest with
  | [] => []
  | c :: rest' => (pre ++ [c]) :: chain (pre ++ [c]) rest'
  end.

End Layout.


(** ** Trees and worlds for the scenarios *)

Module Scenario.
Import Invoke.

(** A project checkout before any day was scaffolded. *)
Definition fresh : gmap (list string) Fs.node :=
  <[ ["templates"; "dayn.rs"] := Fs.File "fn main() {}" ]>
  (<[ ["templates"] := Fs.Dir ]>
  (<[ ["src"; "puzzles"] := Fs.Dir ]>
  (<[ ["src"] := Fs.Dir ]> ∅))).

(** Day 5 already holds the user's work. *)
Definition solved : gmap (list string) Fs.node :=
  <[ ["src"; "puzzles"; "day5.rs"] := Fs.File "solved!" ]> fresh.

(** No template. *)
Definition bare : gmap (list string) Fs.node :=
  <[ ["src"; "puzzles"] := Fs.Dir ]> (<[ ["src"] := Fs.Dir ]> ∅).

(** No [src/puzzles] directory. *)
Definition unprepared : gmap (list string) Fs.node :=
  <[ ["templates"; "dayn.rs"] := Fs.File "fn main() {}" ]>
  (<[ ["templates"] := Fs.Dir ]> ∅).

(** A regular file sits where the [puzzles] directory should go. *)
Definition obstruct (t : gmap (list string) Fs.node)
  : gmap (list string) Fs.node :=
  <[ ["puzzles"] := Fs.File "notes" ]> t.

Definition start (t : gmap (list string) Fs.node) : world := World t [].

(** The user rewrites a file by hand between two runs of the task. *)
Definition edit (p : list string) (data : string) (w : world) : world :=
  World (<[ p := Fs.File data ]> (files w)) (ran w).

End Scenario.

(** ** What a call amounts to *)

(** The outcome of [newday] for an integer day, written as a function of
    the tree it starts from; the lemmas [newday_files] and [newday_result]
    below show that the task computes exactly this. *)
Module Effect.
Import Layout Invoke.

(** The bytes the call copies into the day's file, if it gets to copy. *)
Definition copied (d : Z) (t : gmap (list string) Fs.node) : option string :=
  if decide ((Fs.mkdir_p (puzzle_dir d) t).1 = 0) then
    match t !! source_file d, t !! template, t !! src_puzzles with
    | None, Some (Fs.File data), Some Fs.Dir => Some data
    | _, _, _ => None
    end
  else None.

(** The tree the call leaves. *)
Definition scaffold (d : Z) (t : gmap (list string) Fs.node)
  : gmap (list string) Fs.node :=
  match copied d t with
  | Some data => <[source_file d := Fs.File data]> (Fs.mkdir_p (puzzle_dir d) t).2
  | None => (Fs.mkdir_p (puzzle_dir d) t).2
  end.

(** How the call ends. *)
Definition outcome (d : Z) (t : gmap (list string) Fs.node) : exn + unit :=
  if decide ((Fs.mkdir_p (puzzle_dir d) t).1 = 0) then
    match t !! source_file d with
    | Some _ => inr ()
    | None =>
        match copied d t with
        | Some _ => inr ()
        | None => inl (UnexpectedExit (cp_cmd d) 1)
        end
    end
  else inl (UnexpectedExit (mkdir_cmd d) 1).

End Effect.


(** * Strings: formatting and splitting *)

Section Strings.
Import Layout.

Lemma app_String a s t : String a s +:+ t = String a (s +:+ t).
Proof. reflexivity. Qed.

Lemma app_empty t : EmptyString +:+ t = t.
Proof. reflexivity. Qed.

Lemma app_empty_r s : s +:+ EmptyString = s.
Proof. induction s as [|a s IH]; [done|]. by rewrite app_String, IH. Qed.

Lemma occurs_app c s t : occurs c (s +:+ t) = occurs c s || occurs c t.
Proof.
  induction s as [|a s IH]; [done|].
  rewrite app_String. simpl. rewrite IH. by rewrite orb_assoc.
Qed.

Lemma split_not_nil sep s : Fs.split sep s ≠ [].
Proof.
  destruct s as [|a s]; simpl; [done|].
  destruct (Ascii.eqb a sep); [done|]. by destruct (Fs.split sep s).
Qed.

(** A word free of the separator stays in one piece, glued to the first
    field of what follows it. *)
Lemma split_app_free sep w s :
  occurs sep w = false →
  Fs.split sep (w +:+ s)
  = (w +:+ hd EmptyString (Fs.split sep s)) :: tl (Fs.split sep s).
Proof.
  induction w as [|a w IH]; intros Hfree.
  - rewrite !app_empty. pose proof (split_not_nil sep s).
    by destruct (Fs.split sep s).
  - simpl in Hfree. apply orb_false_elim in Hfree as [Ha Hw].
    rewrite app_String. simpl. rewrite Ha, (IH Hw). done.
Qed.

(** Every character [format_d] writes is a digit or the minus sign. *)
Lemma pretty_N_char_digit x : Ascii.is_nat (pretty_N_char x) ≠ None.
Proof. unfold pretty_N_char. by repeat case_match. Qed.

Lemma occurs_String c a s :
  occurs c (String a s) = Ascii.eqb a c || occurs c s.
Proof. reflexivity. Qed.

Lemma eqb_digit_other a c :
  Ascii.is_nat a ≠ None → Ascii.is_nat c = None → Ascii.eqb a c = false.
Proof. intros Ha Hc. apply Ascii.eqb_neq. by intros ->. Qed.

Lemma occurs_pretty_N_go c x s :
  Ascii.is_nat c = None → occurs c (pretty_N_go x s) = occurs c s.
Proof.
  intros Hc. revert s. induction (N.lt_wf_0 x) as [x _ IH]; intros s.
  assert (x = 0 ∨ 0 < x)%N as [->|Hx] by lia.
  - by rewrite pretty_N_go_0.
  - rewrite pretty_N_go_step by done. rewrite IH by (by apply N.div_lt).
    rewrite occurs_String, eqb_digit_other; auto using pretty_N_char_digit.
Qed.

Lemma occurs_pretty_N c (x : N) :
  Ascii.is_nat c = None → occurs c (pretty x) = false.
Proof.
  intros Hc. unfold pretty, pretty_N. case_decide.
  - by rewrite occurs_String, eqb_digit_other.
  - by rewrite occurs_pretty_N_go.
Qed.

Lemma occurs_format_d c d :
  Ascii.is_nat c = None → c ≠ "-"%char → occurs c (Py.format_d d) = false.
Proof.
  intros Hc Hdash. unfold Py.format_d, pretty, pretty_Z. destruct d as [|p|p].
  - by rewrite occurs_String, eqb_digit_other.
  - by apply occurs_pretty_N.
  - rewrite occurs_app, occurs_String.
    replace (Ascii.eqb "-" c) with false by (symmetry; by apply Ascii.eqb_neq).
    by apply (occurs_pretty_N c (Npos p)).
Qed.

Lemma length_pretty_N_go x s :
  (String.length s ≤ String.length (pretty_N_go x s))%nat.
Proof.
  revert s. induction (N.lt_wf_0 x) as [x _ IH]; intros s.
  assert (x = 0 ∨ 0 < x)%N as [->|Hx] by lia.
  - by rewrite pretty_N_go_0.
  - rewrite pretty_N_go_step by done.
    etrans; [|apply IH; by apply N.div_lt]. simpl. lia.
Qed.

Lemma pretty_N_nonempty (x : N) : pretty x ≠ EmptyString.
Proof.
  unfold pretty, pretty_N. case_decide; [done|].
  rewrite pretty_N_go_step by lia. intros Heq.
  pose proof (length_pretty_N_go (x `div` 10)
                (String (pretty_N_char (x `mod` 10)) "")) as Hlen.
  rewrite Heq in Hlen. simpl in Hlen. lia.
Qed.

Lemma format_d_nonempty d : Fs.nonempty (Py.format_d d) = true.
Proof.
  unfold Py.format_d, pretty, pretty_Z. destruct d as [|p|p]; [done| |done].
  pose proof (pretty_N_nonempty (Npos p)) as Hne.
  unfold pretty, pretty_positive. by destruct (pretty (N.pos p)).
Qed.

Lemma format_d_inj d e : Py.format_d d = Py.format_d e → d = e.
Proof. apply pretty_Z_inj. Qed.

(** The command lines and path names of a day split as intended: the
    formatted number brings in neither a blank nor a slash. *)
Lemma words_mkdir_cmd d :
  Shell.words (mkdir_cmd d) = ["mkdir"; "-p"; dir_name d].
Proof.
  unfold Shell.words, mkdir_cmd, dir_name.
  rewrite !app_String, !app_empty. simpl.
  rewrite split_app_free by (by apply occurs_format_d). done.
Qed.

Lemma words_cp_cmd d :
  Shell.words (cp_cmd d) = ["cp"; "templates/dayn.rs"; file_name d].
Proof.
  unfold Shell.words, cp_cmd, file_name.
  rewrite !app_String, !app_empty. simpl.
  rewrite split_app_free by (by apply occurs_format_d). done.
Qed.

Lemma components_dir_name d : Fs.components (dir_name d) = puzzle_dir d.
Proof.
  unfold Fs.components, dir_name, puzzle_dir.
  rewrite !app_String, !app_empty. simpl.
  rewrite split_app_free by (by apply occurs_format_d). simpl.
  by rewrite app_empty_r, format_d_nonempty.
Qed.

Lemma components_file_name d : Fs.components (file_name d) = source_file d.
Proof.
  unfold Fs.components, file_name, source_file.
  rewrite !app_String, !app_empty. simpl.
  rewrite split_app_free by (by apply occurs_format_d). done.
Qed.

Lemma components_template : Fs.components "templates/dayn.rs" = template.
Proof. reflexivity. Qed.

Lemma is_option_dir_name d : Shell.is_option (dir_name d) = false.
Proof. reflexivity. Qed.

Lemma is_option_file_name d : Shell.is_option (file_name d) = false.
Proof. reflexivity. Qed.

(** Different days have different paths. *)
Lemma puzzle_dir_inj d e : puzzle_dir d = puzzle_dir e → d = e.
Proof. intros [= H]. by apply format_d_inj. Qed.

Lemma source_file_inj d e : source_file d = source_file e → d = e.
Proof.
  intros [= H]. rewrite !app_empty in H. apply format_d_inj.
  assert (Fs.split "." (Py.format_d d +:+ ".rs")
          = Fs.split "." (Py.format_d e +:+ ".rs")) as Hs by (by rewrite H).
  rewrite !split_app_free in Hs by (by apply occurs_format_d).
  simpl in Hs. rewrite !app_empty_r in Hs. by injection Hs.
Qed.

(** ** [int] reads back what [format_d] writes *)

Lemma occurs_rev_app c s1 s2 :
  occurs c (String.rev_app s1 s2) = occurs c s1 || occurs c s2.
Proof.
  revert s2. induction s1 as [|a s1 IH]; intros s2; simpl; [done|].
  rewrite IH. simpl. destruct (Ascii.eqb a c), (occurs c s1); done.
Qed.

Lemma rev_app_rev_app s1 s2 s3 :
  String.rev_app (String.rev_app s1 s2) s3 = String.rev_app s2 (s1 +:+ s3).
Proof.
  revert s2 s3. induction s1 as [|a s1 IH]; intros s2 s3; simpl; [done|].
  by rewrite IH.
Qed.

Lemma rev_rev s : String.rev (String.rev s) = s.
Proof. unfold String.rev. by rewrite rev_app_rev_app, app_empty_r. Qed.

Lemma lstrip_no_space s :
  (∀ c, Py.isspace c = true → occurs c s = false) → Py.lstrip s = s.
Proof.
  intros Hfree. destruct s as [|a s]; simpl; [done|].
  destruct (Py.isspace a) eqn:Ha; [|done].
  apply Hfree in Ha. simpl in Ha. by rewrite Ascii.eqb_refl in Ha.
Qed.

Lemma strip_no_space s :
  (∀ c, Py.isspace c = true → occurs c s = false) → Py.strip s = s.
Proof.
  intros Hfree. unfold Py.strip, Py.rstrip.
  rewrite (lstrip_no_space s) by done.
  rewrite lstrip_no_space, rev_rev; [done|].
  intros c Hc. unfold String.rev. rewrite occurs_rev_app, Hfree; done.
Qed.

Lemma isspace_not_digit c :
  Py.isspace c = true → Ascii.is_nat c = None ∧ c ≠ "-"%char.
Proof. destruct c as [[] [] [] [] [] [] [] []]; done. Qed.

Lemma strip_format_d d : Py.strip (Py.format_d d) = Py.format_d d.
Proof.
  apply strip_no_space. intros c Hc.
  apply isspace_not_digit in Hc as [? ?]. by apply occurs_format_d.
Qed.

Lemma digit_pretty_N_char n :
  (n < 10)%N → Py.digit (pretty_N_char n) = Some (Z.of_N n).
Proof.
  intros Hn.
  assert (n = 0 ∨ n = 1 ∨ n = 2 ∨ n = 3 ∨ n = 4 ∨ n = 5
          ∨ n = 6 ∨ n = 7 ∨ n = 8 ∨ n = 9)%N as Hcases by lia.
  repeat (destruct Hcases as [->|Hcases]; [reflexivity|]). by subst.
Qed.

(** Reading the digits of [x] from an empty accumulator yields [x]. *)
Lemma digits_pretty_N_go x prev s :
  (0 < x)%N →
  Py.digits 0 prev (pretty_N_go x s) = Py.digits (Z.of_N x) true s.
Proof.
  revert prev s. induction (N.lt_wf_0 x) as [x _ IH]; intros prev s Hx.
  rewrite pretty_N_go_step by done.
  destruct (N.eq_0_gt_0_cases (x `div` 10)) as [Hq|Hq].
  - rewrite Hq, pretty_N_go_0. simpl.
    rewrite digit_pretty_N_char by (by apply N.mod_lt).
    f_equal. apply N.div_small_iff in Hq; [|done].
    rewrite N.mod_small by done. lia.
  - rewrite IH by (done || by apply N.div_lt). simpl.
    rewrite digit_pretty_N_char by (by apply N.mod_lt).
    f_equal. rewrite (N.div_mod x 10) at 3 by done. lia.
Qed.

Lemma digits_pretty_positive (p : positive) :
  Py.digits 0 false (pretty (Npos p)) = Some (Zpos p).
Proof.
  unfold pretty, pretty_N. rewrite decide_False by done.
  by rewrite digits_pretty_N_go.
Qed.

Lemma int_of_str_unsigned s :
  Py.strip s = s → occurs "+" s = false → occurs "-" s = false →
  Py.int_of_str s = Py.digits 0 false s.
Proof.
  intros Hstrip Hplus Hminus. unfold Py.int_of_str. rewrite Hstrip.
  destruct s as [|a r]; [done|].
  rewrite occurs_String in Hplus, Hminus.
  apply orb_false_elim in Hplus as [Hplus _].
  apply orb_false_elim in Hminus as [Hminus _].
  destruct a as [[] [] [] [] [] [] [] []];
    try (by vm_compute in Hplus); try (by vm_compute in Hminus); reflexivity.
Qed.

Lemma int_format_d d : Py.int (Py.Str (Py.format_d d)) = Some d.
Proof.
  simpl. destruct d as [|p|p].
  - reflexivity.
  - rewrite int_of_str_unsigned.
    + apply digits_pretty_positive.
    + apply strip_format_d.
    + by apply occurs_format_d.
    + apply (occurs_pretty_N "-" (Npos p)). done.
  - unfold Py.int_of_str. rewrite strip_format_d.
    unfold Py.format_d, pretty, pretty_Z. rewrite app_String, app_empty.
    change (pretty p) with (pretty (Npos p)).
    by rewrite digits_pretty_positive.
Qed.

End Strings.

(** * The file tree: [mkdir -p] and [cp] *)

Section FileTree.
Import Layout.
Implicit Types (t : gmap (list string) Fs.node) (p q pre rest : list string).

Lemma mkdir_p_at_code pre rest t :
  (Fs.mkdir_p_at pre rest t).1 = 0 ∨ (Fs.mkdir_p_at pre rest t).1 = 1.
Proof.
  revert pre t. induction rest as [|c rest IH]; intros pre t; simpl; [by left|].
  destruct (t !! (pre ++ [c])) as [[]|]; auto.
Qed.

(** Nothing that exists is touched. *)
Lemma mkdir_p_at_mono pre rest t q n :
  t !! q = Some n → (Fs.mkdir_p_at pre rest t).2 !! q = Some n.
Proof.
  revert pre t. induction rest as [|c rest IH]; intros pre t Hq; simpl; [done|].
  destruct (t !! (pre ++ [c])) as [[]|] eqn:Hp; simpl; auto.
  apply IH. rewrite lookup_insert_ne; [done|]. intros <-. congruence.
Qed.

(** Only the directories on the way can appear. *)
Lemma mkdir_p_at_frame pre rest t q :
  q ∉ chain pre rest → (Fs.mkdir_p_at pre rest t).2 !! q = t !! q.
Proof.
  revert pre t. induction rest as [|c rest IH]; intros pre t Hq; simpl; [done|].
  simpl in Hq. apply not_elem_of_cons in Hq as [Hne Hq].
  destruct (t !! (pre ++ [c])) as [[]|] eqn:Hp; simpl; auto.
  rewrite IH by done. by rewrite lookup_insert_ne.
Qed.

(** On success every directory on the way is there. *)
Lemma mkdir_p_at_made pre rest t q :
  (Fs.mkdir_p_at pre rest t).1 = 0 → q ∈ chain pre rest →
  (Fs.mkdir_p_at pre rest t).2 !! q = Some Fs.Dir.
Proof.
  revert pre t. induction rest as [|c rest IH]; intros pre t Hok Hq; simpl in *.
  { by apply elem_of_nil in Hq. }
  apply elem_of_cons in Hq as [->|Hq].
  - destruct (t !! (pre ++ [c])) as [[]|] eqn:Hp; simpl in *; [done|..].
    + by apply mkdir_p_at_mono.
    + apply mkdir_p_at_mono. by rewrite lookup_insert_eq.
  - destruct (t !! (pre ++ [c])) as [[]|] eqn:Hp; simpl in *; [done|..]; auto.
Qed.

(** With every directory on the way in place there is nothing to do. *)
Lemma mkdir_p_at_present pre rest t :
  (∀ q, q ∈ chain pre rest → t !! q = Some Fs.Dir) →
  Fs.mkdir_p_at pre rest t = (0, t).
Proof.
  revert pre t. induction rest as [|c rest IH]; intros pre t Hall; simpl; [done|].
  rewrite (Hall (pre ++ [c])) by (simpl; apply elem_of_cons; by left).
  apply IH. intros q Hq. apply Hall. simpl. apply elem_of_cons. by right.
Qed.

(** Running it again changes nothing, whether it succeeded or not. *)
Lemma mkdir_p_at_again pre rest t :
  Fs.mkdir_p_at pre rest (Fs.mkdir_p_at pre rest t).2 = Fs.mkdir_p_at pre rest t.
Proof.
  revert pre t. induction rest as [|c rest IH]; intros pre t; simpl; [done|].
  destruct (t !! (pre ++ [c])) as [[]|] eqn:Hp; simpl.
  - by rewrite Hp.
  - rewrite (mkdir_p_at_mono _ _ _ _ _ Hp). apply IH.
  - rewrite (mkdir_p_at_mono _ _ _ (pre ++ [c]) Fs.Dir)
      by (by rewrite lookup_insert_eq).
    apply IH.
Qed.

(** Whatever appears is a directory. *)
Lemma mkdir_p_at_new pre rest t q n :
  t !! q = None → (Fs.mkdir_p_at pre rest t).2 !! q = Some n → n = Fs.Dir.
Proof.
  revert pre t. induction rest as [|c rest IH]; intros pre t Hq Hn; simpl in *.
  { congruence. }
  destruct (t !! (pre ++ [c])) as [[]|] eqn:Hp; simpl in *; [congruence|eauto|].
  destruct (decide (q = pre ++ [c])) as [->|Hne].
  - rewrite (mkdir_p_at_mono _ _ _ _ Fs.Dir) in Hn; [congruence|].
    by rewrite lookup_insert_eq.
  - apply (IH (pre ++ [c]) (<[pre ++ [c] := Fs.Dir]> t)); [|done].
    by rewrite lookup_insert_ne.
Qed.

(** What happens elsewhere in the tree does not concern it. *)
Lemma mkdir_p_at_insert pre rest t q n :
  q ∉ chain pre rest →
  Fs.mkdir_p_at pre rest (<[q := n]> t)
  = ((Fs.mkdir_p_at pre rest t).1, <[q := n]> (Fs.mkdir_p_at pre rest t).2).
Proof.
  revert pre t. induction rest as [|c rest IH]; intros pre t Hq; simpl; [done|].
  simpl in Hq. apply not_elem_of_cons in Hq as [Hne Hq].
  rewrite lookup_insert_ne by done.
  destruct (t !! (pre ++ [c])) as [[]|] eqn:Hp; simpl; auto.
  rewrite insert_insert_ne by done. auto.
Qed.


(** A failed [mkdir -p] may still have made the directories before the
    obstacle; a failed [cp] leaves the tree as it was. *)
Lemma cp_failed src dst t : (Fs.cp src dst t).1 ≠ 0 → (Fs.cp src dst t).2 = t.
Proof.
  unfold Fs.cp. repeat case_match; simpl; done.
Qed.

Lemma cp_code src dst t : (Fs.cp src dst t).1 = 0 ∨ (Fs.cp src dst t).1 = 1.
Proof.
  unfold Fs.cp. repeat case_match; simpl; auto.
Qed.

(** [cp] onto a path that does not exist yet. *)
Lemma cp_fresh src dst t :
  dst ≠ [] → t !! dst = None →
  Fs.cp src dst t =
    match Fs.stat t src, Fs.stat t (Fs.parent dst) with
    | Some (Fs.File data), Some Fs.Dir => (0, <[dst := Fs.File data]> t)
    | _, _ => (1, t)
    end.
Proof.
  intros Hne Hdst. unfold Fs.cp.
  assert (Fs.stat t dst = None) as Hstat by (by destruct dst).
  destruct (Fs.stat t src) as [[data|]|] eqn:Hsrc; [|done..].
  rewrite Hstat. case_decide as Heq.
  { subst src. congruence. }
  rewrite Hstat. by destruct (Fs.stat t (Fs.parent dst)) as [[]|].
Qed.

(** Well-formedness, read as a property of every entry. *)
Lemma well_formed_spec t :
  Fs.well_formed t = true
  ↔ ∀ p n, t !! p = Some n → Fs.stat t (Fs.parent p) = Some Fs.Dir.
Proof.
  unfold Fs.well_formed. rewrite forallb_forall. split.
  - intros Hwf p n Hp. specialize (Hwf (p, n)). simpl in Hwf.
    destruct (Fs.stat t (Fs.parent p)) as [[]|]; [|done|];
      (discriminate Hwf; apply list_elem_of_In; by apply elem_of_map_to_list).
  - intros Hwf [p n] Hin. simpl.
    apply list_elem_of_In, elem_of_map_to_list in Hin. by rewrite (Hwf p n).
Qed.

Lemma well_formed_parent t p n :
  Fs.well_formed t = true → t !! p = Some n →
  Fs.stat t (Fs.parent p) = Some Fs.Dir.
Proof. rewrite well_formed_spec. eauto. Qed.




End FileTree.

(** * The task, step by step *)

Section Newday.
Import Layout Invoke.
Implicit Types (w : world) (d : Z) (day : Py.value).

Lemma exec_mkdir_cmd d t :
  Shell.exec (mkdir_cmd d) t = Fs.mkdir_p (puzzle_dir d) t.
Proof.
  unfold Shell.exec. rewrite words_mkdir_cmd.
  rewrite decide_True by done.
  by rewrite is_option_dir_name, components_dir_name.
Qed.

Lemma exec_cp_cmd d t :
  Shell.exec (cp_cmd d) t = Fs.cp template (source_file d) t.
Proof.
  unfold Shell.exec. rewrite words_cp_cmd.
  rewrite decide_False by (by intros [? ?]).
  rewrite decide_True by done.
  by rewrite is_option_file_name, components_file_name.
Qed.

(** A day that does not parse stops the task at its first line. *)
Lemma newday_value_error day w :
  Py.int day = None →
  ∃ literal, Tasks.newday day w = (inl (ValueError literal), w).
Proof.
  intros Hday. unfold Tasks.newday, mbind, task_bind, int. rewrite Hday.
  unfold raise. eauto.
Qed.

(** What one call does once [day] is an integer: the [mkdir -p], the
    test, and the [cp] when the test fails. *)
Lemma newday_run day d w :
  Py.int day = Some d →
  Tasks.newday day w =
    let r1 := Fs.mkdir_p (puzzle_dir d) (files w) in
    let w1 := World r1.2 (ran w ++ [(mkdir_cmd d, r1.1)]) in
    if decide (r1.1 = 0) then
      if bool_decide (is_Some (r1.2 !! source_file d)) then (inr (), w1)
      else
        let r2 := Fs.cp template (source_file d) r1.2 in
        let w2 := World r2.2 (ran w1 ++ [(cp_cmd d, r2.1)]) in
        if decide (r2.1 = 0) then (inr (), w2)
        else (inl (UnexpectedExit (cp_cmd d) r2.1), w2)
    else (inl (UnexpectedExit (mkdir_cmd d) r1.1), w1).
Proof.
  intros Hday. unfold Tasks.newday, mbind, task_bind, int. rewrite Hday.
  unfold mret, task_ret.
  change ("mkdir -p puzzles/" +:+ Py.format_d d +:+ "/") with (mkdir_cmd d).
  change ("cp templates/dayn.rs src/puzzles/day" +:+ Py.format_d d +:+ ".rs")
    with (cp_cmd d).
  change ("src/puzzles/day" +:+ Py.format_d d +:+ ".rs") with (file_name d).
  unfold run, os_path_exists. rewrite exec_mkdir_cmd.
  destruct (Fs.mkdir_p (puzzle_dir d) (files w)) as [c1 t1]. simpl.
  case_decide; [|done]. simpl.
  rewrite components_file_name.
  change (Fs.stat t1 (source_file d)) with (t1 !! source_file d).
  case_bool_decide; simpl; [done|].
  rewrite exec_cp_cmd.
  destruct (Fs.cp template (source_file d) t1) as [c2 t2]. simpl.
  by case_decide.
Qed.

(** The paths of a day lie apart from each other. *)
Lemma chain_puzzle_dir d : chain [] (puzzle_dir d) = [puzzles; puzzle_dir d].
Proof. reflexivity. Qed.


Lemma mkdir_keeps d t q n :
  t !! q = Some n → (Fs.mkdir_p (puzzle_dir d) t).2 !! q = Some n.
Proof. apply mkdir_p_at_mono. Qed.

Lemma mkdir_frame d t q :
  q ≠ puzzles → q ≠ puzzle_dir d →
  (Fs.mkdir_p (puzzle_dir d) t).2 !! q = t !! q.
Proof.
  intros H1 H2. apply mkdir_p_at_frame. rewrite chain_puzzle_dir.
  by repeat (apply not_elem_of_cons; split); [..|apply not_elem_of_nil].
Qed.

Lemma mkdir_source_file d e t :
  (Fs.mkdir_p (puzzle_dir d) t).2 !! source_file e = t !! source_file e.
Proof. by apply mkdir_frame. Qed.

Lemma mkdir_template d t :
  (Fs.mkdir_p (puzzle_dir d) t).2 !! template = t !! template.
Proof. by apply mkdir_frame. Qed.

Lemma mkdir_src_puzzles d t :
  (Fs.mkdir_p (puzzle_dir d) t).2 !! src_puzzles = t !! src_puzzles.
Proof. by apply mkdir_frame. Qed.

Lemma mkdir_made d t :
  (Fs.mkdir_p (puzzle_dir d) t).1 = 0 →
  (Fs.mkdir_p (puzzle_dir d) t).2 !! puzzles = Some Fs.Dir
  ∧ (Fs.mkdir_p (puzzle_dir d) t).2 !! puzzle_dir d = Some Fs.Dir.
Proof.
  intros Hok. split; apply mkdir_p_at_made; try done;
    rewrite chain_puzzle_dir; [apply list_elem_of_here|].
  apply list_elem_of_further, list_elem_of_here.
Qed.

Lemma mkdir_present d t :
  t !! puzzles = Some Fs.Dir → t !! puzzle_dir d = Some Fs.Dir →
  Fs.mkdir_p (puzzle_dir d) t = (0, t).
Proof.
  intros H1 H2. apply mkdir_p_at_present. intros q.
  rewrite chain_puzzle_dir. intros Hq.
  apply elem_of_cons in Hq as [->|Hq]; [done|].
  apply elem_of_cons in Hq as [->|Hq]; [done|]. by apply elem_of_nil in Hq.
Qed.

(** The copy of [newday], run where the day's file does not exist. *)
Lemma cp_template d t :
  t !! source_file d = None →
  Fs.cp template (source_file d) t =
    match t !! template, t !! src_puzzles with
    | Some (Fs.File data), Some Fs.Dir =>
        (0, <[source_file d := Fs.File data]> t)
    | _, _ => (1, t)
    end.
Proof. intros Hnone. by rewrite cp_fresh. Qed.

(** The four ways a call with an integer day can go. *)
Lemma newday_cases day d w :
  Py.int day = Some d →
  let r1 := Fs.mkdir_p (puzzle_dir d) (files w) in
  (r1.1 = 1
   ∧ Tasks.newday day w =
       (inl (UnexpectedExit (mkdir_cmd d) 1),
        World r1.2 (ran w ++ [(mkdir_cmd d, 1)])))
  ∨ (r1.1 = 0 ∧ is_Some (files w !! source_file d)
     ∧ Tasks.newday day w =
         (inr (), World r1.2 (ran w ++ [(mkdir_cmd d, 0)])))
  ∨ (r1.1 = 0 ∧ files w !! source_file d = None
     ∧ ∃ data, files w !! template = Some (Fs.File data)
         ∧ files w !! src_puzzles = Some Fs.Dir
         ∧ Tasks.newday day w =
             (inr (), World (<[source_file d := Fs.File data]> r1.2)
                        (ran w ++ [(mkdir_cmd d, 0); (cp_cmd d, 0)])))
  ∨ (r1.1 = 0 ∧ files w !! source_file d = None
     ∧ (∀ data, files w !! template = Some (Fs.File data) →
                files w !! src_puzzles ≠ Some Fs.Dir)
     ∧ Tasks.newday day w =
         (inl (UnexpectedExit (cp_cmd d) 1),
          World r1.2 (ran w ++ [(mkdir_cmd d, 0); (cp_cmd d, 1)]))).
Proof.
  intros Hday r1. rewrite (newday_run day d w Hday).
  pose proof (mkdir_source_file d d (files w)) as Hsf.
  pose proof (mkdir_template d (files w)) as Htp.
  pose proof (mkdir_src_puzzles d (files w)) as Hsp.
  pose proof (mkdir_p_at_code [] (puzzle_dir d) (files w)) as Hcode.
  fold (Fs.mkdir_p (puzzle_dir d) (files w)) in Hcode.
  fold r1 in Hsf, Htp, Hsp, Hcode |- *.
  destruct r1 as [c1 t1]. simpl in *.
  destruct Hcode as [->| ->]; simpl; [|by left].
  right. rewrite Hsf.
  case_bool_decide as Hsrc; [by left|right].
  apply eq_None_not_Some in Hsrc.
  rewrite cp_template by (by rewrite Hsf).
  rewrite Htp, Hsp, <-!(assoc_L (++)). simpl.
  destruct (files w !! template) as [[data|]|] eqn:Ht;
    [destruct (files w !! src_puzzles) as [[]|] eqn:Hs|..]; simpl.
  2: { left. eauto 10. }
  all: right; split_and!; try done; intros; congruence.
Qed.

Lemma mkdir_again d t :
  Fs.mkdir_p (puzzle_dir d) (Fs.mkdir_p (puzzle_dir d) t).2
  = Fs.mkdir_p (puzzle_dir d) t.
Proof. apply mkdir_p_at_again. Qed.

Lemma mkdir_insert_source_file d t n :
  Fs.mkdir_p (puzzle_dir d) (<[source_file d := n]> t)
  = ((Fs.mkdir_p (puzzle_dir d) t).1,
     <[source_file d := n]> (Fs.mkdir_p (puzzle_dir d) t).2).
Proof.
  apply mkdir_p_at_insert. rewrite chain_puzzle_dir.
  by repeat (apply not_elem_of_cons; split); [..|apply not_elem_of_nil].
Qed.

(** After a call the [mkdir -p] of the same day has nothing left to do:
    run again it ends as it did, on the tree as the call left it. *)
Lemma newday_mkdir_stable day d w :
  Py.int day = Some d →
  Fs.mkdir_p (puzzle_dir d) (files (Tasks.newday day w).2)
  = ((Fs.mkdir_p (puzzle_dir d) (files w)).1, files (Tasks.newday day w).2).
Proof.
  intros Hday.
  destruct (newday_cases day d w Hday)
    as [[_ ->]|[(_ & _ & ->)|[(_ & _ & data & _ & _ & ->)|(_ & _ & _ & ->)]]];
    simpl; rewrite ?mkdir_insert_source_file, mkdir_again;
    by destruct (Fs.mkdir_p (puzzle_dir d) (files w)).
Qed.

(** A call in a world where the [mkdir -p] has nothing to do and the
    day's file exists leaves the whole tree as it found it. *)
Lemma newday_settled day d w c :
  Py.int day = Some d →
  Fs.mkdir_p (puzzle_dir d) (files w) = (c, files w) →
  is_Some (files w !! source_file d) →
  files (Tasks.newday day w).2 = files w
  ∧ (Tasks.newday day w).1
    = if decide (c = 0) then inr ()
      else inl (UnexpectedExit (mkdir_cmd d) c).
Proof.
  intros Hday Hm Hsf. rewrite (newday_run day d w Hday), Hm. simpl.
  case_decide; [|done]. by rewrite bool_decide_eq_true_2.
Qed.

(** The [mkdir -p] of a day succeeds unless a regular file is in its way. *)
Lemma mkdir_ok_iff d t :
  (Fs.mkdir_p (puzzle_dir d) t).1 = 0
  ↔ (∀ data, t !! puzzles ≠ Some (Fs.File data))
    ∧ (∀ data, t !! puzzle_dir d ≠ Some (Fs.File data)).
Proof.
  unfold Fs.mkdir_p, puzzle_dir, puzzles. simpl.
  destruct (t !! ["puzzles"]) as [[data|]|] eqn:H1; simpl.
  - split; [done|]. intros [Hno _]. by destruct (Hno data).
  - destruct (t !! ["puzzles"; Py.format_d d]) as [[data|]|] eqn:H2; simpl.
    + split; [done|]. intros [_ Hno]. by destruct (Hno data).
    + done.
    + done.
  - rewrite lookup_insert_ne by done.
    destruct (t !! ["puzzles"; Py.format_d d]) as [[data|]|] eqn:H2; simpl.
    + split; [done|]. intros [_ Hno]. by destruct (Hno data).
    + done.
    + done.
Qed.

End Newday.

(** * The properties of [newday] *)

Section Properties.
Import Layout Invoke Scenario.
Implicit Types (w : world) (d : Z) (day : Py.value).

(** C1. When [src/puzzles/day<d>.rs] exists before the call, whatever it
    holds, the call leaves its contents as they were and skips the copy:
    the one command it runs is the [mkdir -p], so the call either
    succeeds or fails in that command, never in a copy. *)
Theorem newday_keeps_existing_file day d w data :
  Py.int day = Some d →
  files w !! source_file d = Some (Fs.File data) →
  let r := Tasks.newday day w in
  files r.2 !! source_file d = Some (Fs.File data)
  ∧ (∃ code, ran r.2 = ran w ++ [(mkdir_cmd d, code)])
  ∧ (r.1 = inr () ∨ ∃ code, r.1 = inl (UnexpectedExit (mkdir_cmd d) code)).
Proof.
  intros Hday Hfile r. subst r.
  pose proof (mkdir_keeps d _ _ _ Hfile) as Hkept.
  destruct (newday_cases day d w Hday)
    as [[_ ->]|[(_ & _ & ->)|[(_ & Hno & _)|(_ & Hno & _)]]];
    simpl; [eauto 6..|congruence|congruence].
Qed.

Lemma newday_keeps_existing_file_witness :
  let r := Tasks.newday (Py.Str "5") (start solved) in
  files r.2 !! source_file 5 = Some (Fs.File "solved!")
  ∧ (∃ code, ran r.2 = [(mkdir_cmd 5, code)])
  ∧ (r.1 = inr () ∨ ∃ code, r.1 = inl (UnexpectedExit (mkdir_cmd 5) code)).
Proof.
  apply (newday_keeps_existing_file (Py.Str "5") 5 (start solved) "solved!");
    reflexivity.
Defined.

(** C2. When [src/puzzles/day<d>.rs] does not exist before the call and
    the call succeeds, the file exists afterwards and holds exactly the
    bytes of [templates/dayn.rs], which is itself left as it was. *)
Theorem newday_copies_template day d w w' :
  Py.int day = Some d →
  files w !! source_file d = None →
  Tasks.newday day w = (inr (), w') →
  ∃ data, files w !! template = Some (Fs.File data)
          ∧ files w' !! template = Some (Fs.File data)
          ∧ files w' !! source_file d = Some (Fs.File data).
Proof.
  intros Hday Hno Hrun.
  destruct (newday_cases day d w Hday)
    as [[_ Heq]|[(_ & [n Hn] & _)|[(_ & _ & data & Ht & _ & Heq)|(_ & _ & _ & Heq)]]];
    [congruence..| |congruence].
  rewrite Hrun in Heq. injection Heq as ->. simpl.
  exists data. split; [done|]. rewrite lookup_insert_eq.
  rewrite lookup_insert_ne by done. by rewrite mkdir_template.
Qed.

Lemma newday_copies_template_witness :
  ∃ data, files (start fresh) !! template = Some (Fs.File data)
          ∧ files (Tasks.newday (Py.Str "5") (start fresh)).2 !! template
            = Some (Fs.File data)
          ∧ files (Tasks.newday (Py.Str "5") (start fresh)).2 !! source_file 5
            = Some (Fs.File data).
Proof.
  apply (newday_copies_template (Py.Str "5") 5 (start fresh)
           (Tasks.newday (Py.Str "5") (start fresh)).2); reflexivity.
Defined.

(** C3. Calling the task a second time changes nothing: the tree ends as
    the first call left it and the second call ends as the first did.
    And when the day's file is rewritten by hand after the first call,
    the second call leaves the rewritten tree, the file with its new
    contents included, exactly as it finds it. *)
Theorem newday_idempotent day d w :
  Py.int day = Some d →
  let r1 := Tasks.newday day w in
  let r2 := Tasks.newday day r1.2 in
  files r2.2 = files r1.2
  ∧ r2.1 = r1.1
  ∧ ∀ data,
      let edited := edit (source_file d) data r1.2 in
      let r3 := Tasks.newday day edited in
      files r3.2 = files edited
      ∧ files r3.2 !! source_file d = Some (Fs.File data).
Proof.
  intros Hday r1 r2.
  pose proof (newday_mkdir_stable day d w Hday) as Hstable. fold r1 in Hstable.
  assert (∀ data,
    let edited := edit (source_file d) data r1.2 in
    files (Tasks.newday day edited).2 = files edited
    ∧ files (Tasks.newday day edited).2 !! source_file d = Some (Fs.File data))
    as Hedit.
  { intros data edited.
    destruct (newday_settled day d edited
                (Fs.mkdir_p (puzzle_dir d) (files w)).1 Hday) as [Hfiles _].
    - unfold edited, edit. simpl.
      by rewrite mkdir_insert_source_file, Hstable.
    - unfold edited, edit. simpl. by rewrite lookup_insert_eq.
    - split; [done|]. rewrite Hfiles. unfold edited, edit. simpl.
      by rewrite lookup_insert_eq. }
  cut (files r2.2 = files r1.2 ∧ r2.1 = r1.1); [intros [? ?]; by split_and!|].
  subst r2.
  destruct (newday_cases day d w Hday)
    as [[Hc Heq]|[(Hc & Hsf & Heq)|[(Hc & Hno & data & Ht & Hs & Heq)
                                   |(Hc & Hno & Hbad & Heq)]]];
    fold r1 in Heq.
  - (* the mkdir failed: it fails again, on the same tree *)
    rewrite (newday_run day d r1.2 Hday), Hstable, Hc. by rewrite Heq.
  - (* the file was there: it still is *)
    destruct (newday_settled day d r1.2 _ Hday Hstable) as [Hfiles Hres].
    + rewrite Heq. simpl. destruct Hsf as [n Hn]. exists n. by apply mkdir_keeps.
    + split; [done|]. by rewrite Hres, Hc, Heq.
  - (* the file was copied: now it is there *)
    destruct (newday_settled day d r1.2 _ Hday Hstable) as [Hfiles Hres].
    + rewrite Heq. simpl. by rewrite lookup_insert_eq.
    + split; [done|]. by rewrite Hres, Hc, Heq.
  - (* the copy failed: it fails again, for the same reason *)
    rewrite (newday_run day d r1.2 Hday), Hstable, Hc. simpl.
    rewrite Heq. simpl. rewrite mkdir_source_file, Hno. simpl.
    rewrite cp_template by (by rewrite mkdir_source_file).
    rewrite mkdir_template, mkdir_src_puzzles.
    destruct (files w !! template) as [[data|]|] eqn:Ht; try done.
    destruct (files w !! src_puzzles) as [[]|] eqn:Hs; try done.
    by destruct (Hbad data).
Qed.

Lemma newday_idempotent_witness :
  let r1 := Tasks.newday (Py.Str "5") (start fresh) in
  let r2 := Tasks.newday (Py.Str "5") r1.2 in
  files r2.2 = files r1.2
  ∧ r2.1 = r1.1
  ∧ ∀ data,
      let edited := edit (source_file 5) data r1.2 in
      let r3 := Tasks.newday (Py.Str "5") edited in
      files r3.2 = files edited
      ∧ files r3.2 !! source_file 5 = Some (Fs.File data).
Proof.
  apply (newday_idempotent (Py.Str "5") 5 (start fresh)); reflexivity.
Defined.

(** C4. After a successful call the directory [puzzles/<d>/] exists, and
    so does its parent [puzzles/], made on the way when it was missing.
    In a well-formed tree where [puzzles/<d>/] is a directory already,
    the [mkdir -p] command exits with status 0 and changes nothing, and
    [Context.run] returns normally. *)
Theorem newday_makes_puzzle_dir day d w w' :
  Py.int day = Some d →
  Tasks.newday day w = (inr (), w') →
  files w' !! puzzle_dir d = Some Fs.Dir
  ∧ files w' !! puzzles = Some Fs.Dir
  ∧ ∀ w0, Fs.well_formed (files w0) = true →
          files w0 !! puzzle_dir d = Some Fs.Dir →
          Shell.exec (mkdir_cmd d) (files w0) = (0, files w0)
          ∧ run (mkdir_cmd d) w0
            = (inr (), World (files w0) (ran w0 ++ [(mkdir_cmd d, 0)])).
Proof.
  intros Hday Hrun. split_and!.
  - destruct (newday_cases day d w Hday)
      as [[_ Heq]|[(Hc & _ & Heq)|[(Hc & _ & data & _ & _ & Heq)|(_ & _ & _ & Heq)]]];
      rewrite Hrun in Heq; try done; injection Heq as ->; simpl;
      rewrite ?lookup_insert_ne by done; by apply mkdir_made.
  - destruct (newday_cases day d w Hday)
      as [[_ Heq]|[(Hc & _ & Heq)|[(Hc & _ & data & _ & _ & Heq)|(_ & _ & _ & Heq)]]];
      rewrite Hrun in Heq; try done; injection Heq as ->; simpl;
      rewrite ?lookup_insert_ne by done; by apply mkdir_made.
  - intros w0 Hwf Hdir.
    assert (Shell.exec (mkdir_cmd d) (files w0) = (0, files w0)) as Hexec.
    { rewrite exec_mkdir_cmd. apply mkdir_present; [|done].
      by apply (well_formed_parent _ _ _ Hwf Hdir). }
    split; [done|]. unfold run. by rewrite Hexec.
Qed.

Lemma newday_makes_puzzle_dir_witness :
  let w' := (Tasks.newday (Py.Str "5") (start fresh)).2 in
  files w' !! puzzle_dir 5 = Some Fs.Dir
  ∧ files w' !! puzzles = Some Fs.Dir
  ∧ ∀ w0, Fs.well_formed (files w0) = true →
          files w0 !! puzzle_dir 5 = Some Fs.Dir →
          Shell.exec (mkdir_cmd 5) (files w0) = (0, files w0)
          ∧ run (mkdir_cmd 5) w0
            = (inr (), World (files w0) (ran w0 ++ [(mkdir_cmd 5, 0)])).
Proof.
  apply (newday_makes_puzzle_dir (Py.Str "5") 5 (start fresh)); reflexivity.
Defined.

(** C5. A day that [int] cannot parse makes the task raise [ValueError]
    (the spec's InvalidArgument) before anything else happens: the world
    is returned as it was, no command run and the tree untouched. *)
Theorem newday_rejects_non_integer day w :
  Py.int day = None →
  ∃ literal, Tasks.newday day w = (inl (ValueError literal), w).
Proof.
  intros Hday. unfold Tasks.newday, mbind, task_bind, int.
  destruct (Py.int day) as [d|]; [discriminate Hday|].
  unfold raise. by eexists.
Qed.

Lemma newday_rejects_non_integer_witness :
  ∃ literal,
    Tasks.newday (Py.Str "abc") (start fresh)
    = (inl (ValueError literal), start fresh).
Proof.
  apply (newday_rejects_non_integer (Py.Str "abc") (start fresh)); reflexivity.
Defined.

















End Properties.

(** * A call as a function of the tree, and how calls compose *)

Section Composition.
Import Layout Invoke Scenario Effect.
Implicit Types (w : world) (d e : Z) (day : Py.value)
  (t : gmap (list string) Fs.node).

Lemma newday_files day d w :
  Py.int day = Some d → files (Tasks.newday day w).2 = scaffold d (files w).
Proof.
  intros Hday. unfold scaffold, copied.
  destruct (newday_cases day d w Hday)
    as [[Hc ->]|[(Hc & [n Hn] & ->)|[(Hc & Hno & data & Ht & Hs & ->)
                                   |(Hc & Hno & Hbad & ->)]]];
    simpl; rewrite Hc; simpl; [done|by rewrite Hn|by rewrite Hno, Ht, Hs|].
  rewrite Hno.
  destruct (files w !! template) as [[data|]|] eqn:Ht; try done.
  destruct (files w !! src_puzzles) as [[]|] eqn:Hs; try done.
  by destruct (Hbad data).
Qed.

Lemma newday_result day d w :
  Py.int day = Some d → (Tasks.newday day w).1 = outcome d (files w).
Proof.
  intros Hday. unfold outcome, copied.
  destruct (newday_cases day d w Hday)
    as [[Hc ->]|[(Hc & [n Hn] & ->)|[(Hc & Hno & data & Ht & Hs & ->)
                                   |(Hc & Hno & Hbad & ->)]]];
    simpl; rewrite Hc; simpl; [done|by rewrite Hn|by rewrite Hno, Ht, Hs|].
  rewrite Hno.
  destruct (files w !! template) as [[data|]|] eqn:Ht; try done.
  destruct (files w !! src_puzzles) as [[]|] eqn:Hs; try done.
  by destruct (Hbad data).
Qed.

(** Two [mkdir -p] of different days can be run in either order. *)
Lemma mkdir_commute d e t :
  d ≠ e →
  (Fs.mkdir_p (puzzle_dir e) (Fs.mkdir_p (puzzle_dir d) t).2).2
  = (Fs.mkdir_p (puzzle_dir d) (Fs.mkdir_p (puzzle_dir e) t).2).2.
Proof.
  intros Hde.
  assert (puzzle_dir d ≠ puzzle_dir e) as Hne
    by (intros Heq; by apply puzzle_dir_inj in Heq).
  unfold Fs.mkdir_p, puzzle_dir, puzzles in *. simpl.
  destruct (t !! ["puzzles"]) as [[x|]|] eqn:H0;
    destruct (t !! ["puzzles"; Py.format_d d]) as [[y|]|] eqn:H1;
    destruct (t !! ["puzzles"; Py.format_d e]) as [[z|]|] eqn:H2;
    simpl;
    repeat (rewrite ?H0, ?H1, ?H2, ?lookup_insert_eq; simpl;
            try (rewrite lookup_insert_ne by done; simpl));
    try done.
  all: by apply insert_insert_ne.
Qed.

(** A [mkdir -p] neither makes nor removes a regular file. *)
Lemma mkdir_file_iff d t q data :
  (Fs.mkdir_p (puzzle_dir d) t).2 !! q = Some (Fs.File data)
  ↔ t !! q = Some (Fs.File data).
Proof.
  split; [|apply mkdir_keeps]. intros Hq.
  destruct (t !! q) as [n|] eqn:Ht.
  - by rewrite (mkdir_keeps d t q n Ht) in Hq.
  - by apply (mkdir_p_at_new _ _ _ _ _ Ht) in Hq.
Qed.

(** So the [mkdir -p] of a day ends the same way after that of another. *)
Lemma mkdir_code_after_mkdir d e t :
  (Fs.mkdir_p (puzzle_dir e) (Fs.mkdir_p (puzzle_dir d) t).2).1
  = (Fs.mkdir_p (puzzle_dir e) t).1.
Proof.
  pose proof (mkdir_ok_iff e (Fs.mkdir_p (puzzle_dir d) t).2) as Hafter.
  pose proof (mkdir_ok_iff e t) as Hbefore.
  assert ((Fs.mkdir_p (puzzle_dir e) (Fs.mkdir_p (puzzle_dir d) t).2).1 = 0
          ↔ (Fs.mkdir_p (puzzle_dir e) t).1 = 0) as Hiff.
  { rewrite Hafter, Hbefore. by setoid_rewrite mkdir_file_iff. }
  destruct (mkdir_p_at_code [] (puzzle_dir e) (Fs.mkdir_p (puzzle_dir d) t).2)
    as [H1|H1], (mkdir_p_at_code [] (puzzle_dir e) t) as [H2|H2];
    fold (Fs.mkdir_p (puzzle_dir e) (Fs.mkdir_p (puzzle_dir d) t).2) in H1;
    fold (Fs.mkdir_p (puzzle_dir e) t) in H2.
  - congruence.
  - apply Hiff in H1. congruence.
  - apply Hiff in H2. congruence.
  - congruence.
Qed.

Lemma mkdir_insert_other d e t n :
  Fs.mkdir_p (puzzle_dir e) (<[source_file d := n]> t)
  = ((Fs.mkdir_p (puzzle_dir e) t).1,
     <[source_file d := n]> (Fs.mkdir_p (puzzle_dir e) t).2).
Proof.
  apply mkdir_p_at_insert. rewrite chain_puzzle_dir.
  by repeat (apply not_elem_of_cons; split); [..|apply not_elem_of_nil].
Qed.

(** What one day's call leaves does not change what another day's call
    copies. *)
Lemma copied_after_scaffold d e t :
  d ≠ e → copied e (scaffold d t) = copied e t.
Proof.
  intros Hde.
  assert (source_file d ≠ source_file e) as Hne
    by (intros Heq; by apply source_file_inj in Heq).
  assert (∀ q, q ≠ source_file d → q ≠ puzzles → q ≠ puzzle_dir d →
               scaffold d t !! q = t !! q) as Hframe.
  { intros q H1 H2 H3. unfold scaffold.
    destruct (copied d t); rewrite ?lookup_insert_ne by done;
      by apply mkdir_frame. }
  assert ((Fs.mkdir_p (puzzle_dir e) (scaffold d t)).1
          = (Fs.mkdir_p (puzzle_dir e) t).1) as Hcode.
  { unfold scaffold. destruct (copied d t).
    - rewrite mkdir_insert_other. simpl. apply mkdir_code_after_mkdir.
    - apply mkdir_code_after_mkdir. }
  unfold copied. rewrite Hcode.
  by rewrite !Hframe by done.
Qed.

Lemma scaffold_commute d e t :
  d ≠ e → scaffold e (scaffold d t) = scaffold d (scaffold e t).
Proof.
  intros Hde.
  assert (source_file d ≠ source_file e) as Hne
    by (intros Heq; by apply source_file_inj in Heq).
  unfold scaffold at 1 3.
  rewrite (copied_after_scaffold d e), (copied_after_scaffold e d) by done.
  unfold scaffold.
  destruct (copied d t) as [x|], (copied e t) as [y|];
    rewrite ?mkdir_insert_other; simpl;
    rewrite (mkdir_commute d e t Hde); [|done..].
  by apply insert_insert_ne.
Qed.

(** X7. Days do not interfere: for two different days the two calls can
    be made in either order with the same final tree, and each call ends,
    in success or with the same exception, as it would have ended had the
    other not been made. *)
Theorem newday_days_commute day1 day2 d e w :
  Py.int day1 = Some d →
  Py.int day2 = Some e →
  d ≠ e →
  let after1 := Tasks.newday day1 w in
  let after2 := Tasks.newday day2 w in
  files (Tasks.newday day2 after1.2).2 = files (Tasks.newday day1 after2.2).2
  ∧ (Tasks.newday day2 after1.2).1 = after2.1
  ∧ (Tasks.newday day1 after2.2).1 = after1.1.
Proof.
  intros Hd He Hde after1 after2. subst after1 after2.
  rewrite !(newday_files day1 d), !(newday_files day2 e) by done.
  rewrite !(newday_result day1 d), !(newday_result day2 e) by done.
  rewrite !(newday_files day1 d), !(newday_files day2 e) by done.
  split; [by apply scaffold_commute|].
  assert (∀ a b, a ≠ b → outcome b (scaffold a (files w)) = outcome b (files w))
    as Hout.
  { intros a b Hab. unfold outcome.
    rewrite (copied_after_scaffold a b) by done.
    assert (source_file a ≠ source_file b) as Hne
      by (intros Heq; by apply source_file_inj in Heq).
    assert (scaffold a (files w) !! source_file b = files w !! source_file b)
      as ->.
    { unfold scaffold. destruct (copied a (files w));
        rewrite ?lookup_insert_ne by done; by apply mkdir_frame. }
    assert ((Fs.mkdir_p (puzzle_dir b) (scaffold a (files w))).1
            = (Fs.mkdir_p (puzzle_dir b) (files w)).1) as ->; [|done].
    unfold scaffold. destruct (copied a (files w)).
    - rewrite mkdir_insert_other. simpl. apply mkdir_code_after_mkdir.
    - apply mkdir_code_after_mkdir. }
  split; apply Hout; congruence.
Qed.

Lemma newday_days_commute_witness :
  let after1 := Tasks.newday (Py.Str "5") (start fresh) in
  let after2 := Tasks.newday (Py.Str "7") (start fresh) in
  files (Tasks.newday (Py.Str "7") after1.2).2
  = files (Tasks.newday (Py.Str "5") after2.2).2
  ∧ (Tasks.newday (Py.Str "7") after1.2).1 = after2.1
  ∧ (Tasks.newday (Py.Str "5") after2.2).1 = after1.1.
Proof.
  apply (newday_days_commute (Py.Str "5") (Py.Str "7") 5 7 (start fresh));
    [reflexivity|reflexivity|discriminate].
Defined.

(** X1. Whatever the integer, the two command lines [newday] builds split
    into exactly the words meant: [mkdir], [-p] and one operand, [cp] and
    two operands, no operand an option; and the two path names have
    exactly the components meant. The formatted day is not empty and holds
    nothing but digits and a minus sign, so it can add neither a word nor
    a path component. *)
Theorem newday_commands_intact d :
  let day := Py.format_d d in
  Shell.words ("mkdir -p puzzles/" +:+ day +:+ "/")
  = ["mkdir"; "-p"; "puzzles/" +:+ day +:+ "/"]
  ∧ Shell.words ("cp templates/dayn.rs src/puzzles/day" +:+ day +:+ ".rs")
    = ["cp"; "templates/dayn.rs"; "src/puzzles/day" +:+ day +:+ ".rs"]
  ∧ Fs.components ("puzzles/" +:+ day +:+ "/") = ["puzzles"; day]
  ∧ Fs.components ("src/puzzles/day" +:+ day +:+ ".rs")
    = ["src"; "puzzles"; "day" +:+ day +:+ ".rs"]
  ∧ Shell.is_option ("puzzles/" +:+ day +:+ "/") = false
  ∧ Shell.is_option ("src/puzzles/day" +:+ day +:+ ".rs") = false
  ∧ Fs.nonempty day = true
  ∧ ∀ c, occurs c day = true → Ascii.is_nat c ≠ None ∨ c = "-"%char.
Proof.
  intros day. subst day. split_and!.
  - apply (words_mkdir_cmd d).
  - apply (words_cp_cmd d).
  - apply (components_dir_name d).
  - apply (components_file_name d).
  - reflexivity.
  - reflexivity.
  - apply format_d_nonempty.
  - intros c Hc. destruct (Ascii.is_nat c) as [n|] eqn:Hnat; [by left|].
    destruct (decide (c = "-"%char)) as [->|Hdash]; [by right|].
    rewrite occurs_format_d in Hc by done. discriminate Hc.
Qed.

(** X2. The names of a day tell the day: two days with the same directory
    name, or with the same file name, are the same day, and [int] reads
    the day back from its formatted form, negative days included. *)
Theorem day_names_faithful d e :
  (Fs.components (dir_name d) = Fs.components (dir_name e) → d = e)
  ∧ (Fs.components (file_name d) = Fs.components (file_name e) → d = e)
  ∧ (mkdir_cmd d = mkdir_cmd e → d = e)
  ∧ Py.int (Py.Str (Py.format_d d)) = Some d.
Proof.
  split_and!.
  - rewrite !components_dir_name. apply puzzle_dir_inj.
  - rewrite !components_file_name. apply source_file_inj.
  - intros Heq.
    assert (Shell.words (mkdir_cmd d) = Shell.words (mkdir_cmd e)) as Hw
      by (by rewrite Heq).
    rewrite !words_mkdir_cmd in Hw.
    assert (dir_name d = dir_name e) as Hdir by congruence.
    apply puzzle_dir_inj. by rewrite <-!components_dir_name, Hdir.
  - apply int_format_d.
Qed.



(** X4. What a call adds to the command history, and how it ends, is one
    of five things: nothing, with [ValueError]; the [mkdir -p] with exit
    status 1 and its exception; the [mkdir -p] alone with status 0 and
    success; the [mkdir -p] and the [cp], both with status 0, and success;
    or the two with the [cp] at status 1 and its exception. So the [cp] is
    run only after a [mkdir -p] that exited with 0, no command is run
    twice, and an exception always names the last command run. *)
Theorem newday_history day w :
  let r := Tasks.newday day w in
  (Py.int day = None ∧ ran r.2 = ran w ∧ ∃ literal, r.1 = inl (ValueError literal))
  ∨ ∃ d, Py.int day = Some d
      ∧ (ran r.2 = ran w ++ [(mkdir_cmd d, 1)]
         ∧ r.1 = inl (UnexpectedExit (mkdir_cmd d) 1)
         ∨ ran r.2 = ran w ++ [(mkdir_cmd d, 0)] ∧ r.1 = inr ()
         ∨ ran r.2 = ran w ++ [(mkdir_cmd d, 0); (cp_cmd d, 0)] ∧ r.1 = inr ()
         ∨ ran r.2 = ran w ++ [(mkdir_cmd d, 0); (cp_cmd d, 1)]
           ∧ r.1 = inl (UnexpectedExit (cp_cmd d) 1)).
Proof.
  intros r. subst r. destruct (Py.int day) as [d|] eqn:Hday.
  - right. exists d. split; [done|].
    destruct (newday_cases day d w Hday)
      as [[_ ->]|[(_ & _ & ->)|[(_ & _ & data & _ & _ & ->)|(_ & _ & _ & ->)]]];
      simpl; auto.
  - left. destruct (newday_value_error day w Hday) as [literal ->]. eauto.
Qed.

(** X5. The test before the copy is [os.path.exists], not a test for a
    regular file: with a directory at [src/puzzles/day<d>.rs] and nothing
    in the way of the [mkdir -p], the call succeeds without running the
    [cp], and the day still has no source file. *)
Theorem newday_directory_at_source_file day d w :
  Py.int day = Some d →
  files w !! source_file d = Some Fs.Dir →
  (∀ data, files w !! puzzles ≠ Some (Fs.File data)) →
  (∀ data, files w !! puzzle_dir d ≠ Some (Fs.File data)) →
  let r := Tasks.newday day w in
  r.1 = inr ()
  ∧ files r.2 !! source_file d = Some Fs.Dir
  ∧ ran r.2 = ran w ++ [(mkdir_cmd d, 0)].
Proof.
  intros Hday Hdir H1 H2 r. subst r.
  assert ((Fs.mkdir_p (puzzle_dir d) (files w)).1 = 0) as Hok
    by (by apply mkdir_ok_iff).
  destruct (newday_cases day d w Hday)
    as [[Hc _]|[(_ & _ & ->)|[(_ & Hno & _)|(_ & Hno & _)]]];
    [congruence| |congruence..].
  simpl. split_and!; [done| |done]. by apply mkdir_keeps.
Qed.

Lemma newday_directory_at_source_file_witness :
  let w := start (<[ ["src"; "puzzles"; "day5.rs"] := Fs.Dir ]> fresh) in
  let r := Tasks.newday (Py.Str "5") w in
  r.1 = inr ()
  ∧ files r.2 !! source_file 5 = Some Fs.Dir
  ∧ ran r.2 = ran w ++ [(mkdir_cmd 5, 0)].
Proof.
  apply (newday_directory_at_source_file (Py.Str "5") 5
           (start (<[ ["src"; "puzzles"; "day5.rs"] := Fs.Dir ]> fresh)));
    [reflexivity|reflexivity|discriminate|discriminate].
Defined.





End Composition.

(** * The scenarios of the specification, run *)

Section Scenarios.
Import Layout Invoke Scenario.

Example int_literals :
  Py.int (Py.Str "1_000") = Some 1000
  ∧ Py.int (Py.Str (String "009" "12" +:+ String "010" "")) = Some 12
  ∧ Py.int (Py.Str "-0") = Some 0
  ∧ Py.int (Py.Str "") = None
  ∧ Py.int (Py.Str "1__0") = None
  ∧ Py.int (Py.Str "_1") = None
  ∧ Py.int (Py.Str "1_") = None
  ∧ Py.int (Py.Str "+-7") = None
  ∧ Py.int (Py.Str "+ 7") = None
  ∧ Py.int (Py.Str "7.0") = None
  ∧ Py.int (Py.Str "0x7") = None.
Proof. by split_and!. Qed.

Example format_d_literals :
  Py.format_d 0 = "0" ∧ Py.format_d 25 = "25" ∧ Py.format_d (-305) = "-305".
Proof. by split_and!. Qed.

Example scenarios_well_formed :
  Forall (λ t, Fs.well_formed t = true)
    [fresh; solved; bare; unprepared; obstruct bare; obstruct unprepared].
Proof. by repeat constructor. Qed.

(** Scenario A: day 5, nothing there yet. *)
Example scenario_A :
  Tasks.newday (Py.Str "5") (start fresh)
  = (inr (),
     World (<[ ["src"; "puzzles"; "day5.rs"] := Fs.File "fn main() {}" ]>
            (<[ ["puzzles"; "5"] := Fs.Dir ]>
            (<[ ["puzzles"] := Fs.Dir ]> fresh)))
       [("mkdir -p puzzles/5/", 0);
        ("cp templates/dayn.rs src/puzzles/day5.rs", 0)]).
Proof. by vm_compute. Qed.

(** Scenario B: day 5, the file already holds the user's text. *)
Example scenario_B :
  Tasks.newday (Py.Str "5") (start solved)
  = (inr (),
     World (<[ ["puzzles"; "5"] := Fs.Dir ]> (<[ ["puzzles"] := Fs.Dir ]> solved))
       [("mkdir -p puzzles/5/", 0)])
  ∧ files (Tasks.newday (Py.Str "5") (start solved)).2
      !! ["src"; "puzzles"; "day5.rs"] = Some (Fs.File "solved!").
Proof. by vm_compute. Qed.

(** Scenario C: a day that is no integer. *)
Example scenario_C :
  Tasks.newday (Py.Str "abc") (start fresh)
  = (inl (ValueError "abc"), start fresh).
Proof. by vm_compute. Qed.

(** Scenario D: day 7, no template. *)
Example scenario_D :
  Tasks.newday (Py.Str "7") (start bare)
  = (inl (UnexpectedExit "cp templates/dayn.rs src/puzzles/day7.rs" 1),
     World (<[ ["puzzles"; "7"] := Fs.Dir ]> (<[ ["puzzles"] := Fs.Dir ]> bare))
       [("mkdir -p puzzles/7/", 0);
        ("cp templates/dayn.rs src/puzzles/day7.rs", 1)]).
Proof. by vm_compute. Qed.

End Scenarios.
